(** * EyeMouse content script: a shallow embedding of [overlay.js]

    The development follows [extension/content/overlay.js], the
    [EyeMouseController] class.  The controller object ([this]) and the part
    of the browser it talks to (the WebSocket wire, timers, the animation
    frame queue, the host document) are explicit state; every method is a
    function in a small state-and-exception monad, because a JavaScript
    method keeps the mutations it made before it throws.

    JavaScript numbers are idealised as rationals ([Q]); no property below
    depends on rounding. *)

From Stdlib Require Import QArith Qround.
From stdpp Require Import base strings gmap list pretty.

Open Scope string_scope.
Open Scope list_scope.

(** ** Strings: the two [String.prototype] methods the classifier uses *)

Definition lower_ascii (c : Ascii.ascii) : Ascii.ascii :=
  let n := Ascii.nat_of_ascii c in
  if (65 <=? n)%nat && (n <=? 90)%nat then Ascii.ascii_of_nat (n + 32) else c.

(** [s.toLowerCase()], on the ASCII letters. *)
Fixpoint toLowerCase (s : string) : string :=
  match s with
  | EmptyString => EmptyString
  | String c r => String (lower_ascii c) (toLowerCase r)
  end.

(** [hay.includes(needle)]. *)
Definition includes (hay needle : string) : bool :=
  match String.index 0 needle hay with
  | Some _ => true
  | None => false
  end.

(** JavaScript truthiness of a string and of a nullable string. *)
Definition truthy (s : string) : bool := negb (String.eqb s "").

Definition truthy_opt (o : option string) : bool :=
  match o with
  | Some s => truthy s
  | None => false
  end.

(** ** The host document *)

Record Rect := { rect_left : Q; rect_top : Q; rect_width : Q; rect_height : Q }.

(** [element.className] is a string on HTML elements and an
    [SVGAnimatedString] object on SVG elements. *)
Inductive ClassName :=
| ClassString (s : string)
| ClassAnimated (baseVal : string).

(** What the controller reads of an element.  [node] is the identity of the
    DOM node: [===] on elements compares [node]. *)
Record Element := {
  node : nat;
  tagName : string;
  onclick : bool;                       (* [element.onclick] holds a handler *)
  attributes : gmap string string;      (* [element.getAttribute(name)] *)
  cursor : string;                      (* [getComputedStyle(element).cursor] *)
  isContentEditable : bool;
  className : ClassName;
  boundingClientRect : Rect
}.

Definition getAttribute (el : Element) (name : string) : option string :=
  attributes el !! name.

Definition same_node (a b : Element) : bool := (node a =? node b)%nat.

Record Document := {
  elementFromPoint : Q -> Q -> option Element;
  body : Element;
  documentElement : Element;
  innerWidth : Q;
  innerHeight : Q;
  scrollX : Q;
  scrollY : Q
}.

(** ** The wire protocol *)

Definition Frame := string.

(** Outbound commands, [{ command: ... }]. *)
Inductive Command :=
| load_model
| start_calibration
| start_tune
| calibration_frame (frame : Frame)
| track_gaze (frame : Frame)
| stop.

Record Point := { point_x : Q; point_y : Q }.

(** Inbound events, [data.type]; the [switch] has no default case. *)
Inductive BackendMessage :=
| calibration_started (points : list Point)
| calibration_face_countdown (progress : Q) (message : option string)
| calibration_point_start (index : nat)
| calibration_pulse (progress : Q)
| calibration_capture (progress : Q)
| calibration_complete (success : bool) (samples : nat) (is_tune : bool)
| model_loaded (success : bool)
| gaze_update (x y : option Q) (double_blink : bool)
| backend_error (message : string)
| other_type (type : string).

Inductive ReadyState := CONNECTING | OPEN | CLOSING | CLOSED.

(** What the backend observes of the transport, in order. *)
Inductive WireEvent :=
| Sent (c : Command)
| Closed.

(** ** The controller object *)

Record CursorElement := {
  cursor_display : bool; cursor_left : Q; cursor_top : Q
}.

Record HighlightBox := {
  hl_display : bool; hl_left : Q; hl_top : Q; hl_width : Q; hl_height : Q
}.

(** The markup written to [calibrationOverlay.innerHTML], by template. *)
Inductive OverlayContent :=
| Blank
| FaceCountdown (message : string) (progressPercent : Z)
| PulsePoint (x y progress : Q) (label : nat)   (* radius 15 + 15*|sin(4 pi progress)| *)
| CapturePoint (x y angle : Q) (label : nat).

Record CalibrationOverlay := { ov_display : bool; ov_content : OverlayContent }.

Record StatusElement := { st_display : bool; st_text : string }.

(** The fields of [this].  [videoStream], [videoElement] and [ctx] record
    whether the object is there ([false] is [null]); [recognition] is [None]
    without [webkitSpeechRecognition], else whether it is listening. *)
Record Controller := {
  isActive : bool;
  isCalibrated : bool;
  ws : option ReadyState;
  videoStream : bool;
  videoElement : bool;
  ctx : bool;
  calibrationPoints : list Point;
  currentCalibrationIndex : nat;
  cursorElement : CursorElement;
  highlightBox : HighlightBox;
  currentElement : option Element;
  recognition : option bool;
  calibrationInterval : option nat;
  calibrationOverlay : CalibrationOverlay;
  statusElement : StatusElement
}.

(** ** The browser around it *)

Inductive TimerAction :=
| HideStatus                                  (* [() => this.hideStatus()] *)
| CloseSocket                                 (* the closure in [deactivate] *)
| RevertBackground (n : nat) (originalBg : string)  (* the closure in [clickElement] *)
| AutoActivate.                               (* the closure in [init] *)

Inductive RafCallback := SendFrame | TrackLoop.

Record Browser := {
  wire : list WireEvent;                 (* what went over the socket *)
  camera : Frame;                        (* the current camera image, as a data URL *)
  storageActive : bool;                  (* [chrome.storage.local] key [isActive] *)
  styles : gmap nat string;              (* [element.style.background], by node *)
  clicks : list nat;                     (* [element.click()] calls, by node *)
  alerts : list string;                  (* [alert(...)] calls *)
  timers : list (nat * TimerAction);     (* pending [setTimeout]s, delay in ms *)
  rafQueue : list RafCallback            (* pending [requestAnimationFrame]s *)
}.

Record World := { this : Controller; env : Browser }.

(** ** Completions and the method monad *)

(** What a method can throw or an awaited promise reject with: the two
    exceptions of the platform, the rejection of [getUserMedia] (a
    [DOMException] with a message) and the [error] event that
    [connectWebSocket] rejects with (an [Event], which has no [message]). *)
Inductive Exn :=
| TypeError
| InvalidStateError
| MediaError (message : string)
| SocketError.

(** [error.message], as [activate] prints it. *)
Definition exn_message (e : Exn) : string :=
  match e with
  | TypeError => "TypeError"
  | InvalidStateError => "InvalidStateError"
  | MediaError m => m
  | SocketError => "undefined"
  end.

Inductive Completion (A : Type) :=
| Return (a : A)
| Throw (e : Exn).
Arguments Return {A} a.
Arguments Throw {A} e.

Definition Js (A : Type) : Type := World -> Completion A * World.

Definition ret {A} (a : A) : Js A := fun w => (Return a, w).

Definition throw {A} (e : Exn) : Js A := fun w => (Throw e, w).

Definition bind {A B} (m : Js A) (k : A -> Js B) : Js B :=
  fun w =>
    match m w with
    | (Return a, w') => k a w'
    | (Throw e, w') => (Throw e, w')
    end.

Notation "x <- m ;; k" := (bind m (fun x => k))
  (at level 100, m at next level, right associativity).
Notation "m ;; k" := (bind m (fun _ => k))
  (at level 100, right associativity).

Definition get_this : Js Controller := fun w => (Return (this w), w).

Definition get_env : Js Browser := fun w => (Return (env w), w).

Definition modify_this (f : Controller -> Controller) : Js unit :=
  fun w => (Return tt, {| this := f (this w); env := env w |}).

Definition modify_env (f : Browser -> Browser) : Js unit :=
  fun w => (Return tt, {| this := this w; env := f (env w) |}).

(** [try { m } catch (error) { h }]. *)
Definition try_catch {A} (m : Js A) (h : Exn -> Js A) : Js A :=
  fun w =>
    match m w with
    | (Return a, w') => (Return a, w')
    | (Throw e, w') => h e w'
    end.

(** The world a task leaves behind; an exception that reaches the event loop
    is reported and the loop goes on. *)
Definition run {A} (m : Js A) (w : World) : World := snd (m w).

Definition completion {A} (m : Js A) (w : World) : Completion A := fst (m w).

(** ** Field assignment *)

Definition with_isActive (v : bool) (c : Controller) : Controller :=
  {| isActive := v; isCalibrated := isCalibrated c; ws := ws c;
     videoStream := videoStream c; videoElement := videoElement c; ctx := ctx c;
     calibrationPoints := calibrationPoints c;
     currentCalibrationIndex := currentCalibrationIndex c;
     cursorElement := cursorElement c; highlightBox := highlightBox c;
     currentElement := currentElement c; recognition := recognition c;
     calibrationInterval := calibrationInterval c;
     calibrationOverlay := calibrationOverlay c; statusElement := statusElement c |}.

Definition with_isCalibrated (v : bool) (c : Controller) : Controller :=
  {| isActive := isActive c; isCalibrated := v; ws := ws c;
     videoStream := videoStream c; videoElement := videoElement c; ctx := ctx c;
     calibrationPoints := calibrationPoints c;
     currentCalibrationIndex := currentCalibrationIndex c;
     cursorElement := cursorElement c; highlightBox := highlightBox c;
     currentElement := currentElement c; recognition := recognition c;
     calibrationInterval := calibrationInterval c;
     calibrationOverlay := calibrationOverlay c; statusElement := statusElement c |}.

Definition with_ws (v : option ReadyState) (c : Controller) : Controller :=
  {| isActive := isActive c; isCalibrated := isCalibrated c; ws := v;
     videoStream := videoStream c; videoElement := videoElement c; ctx := ctx c;
     calibrationPoints := calibrationPoints c;
     currentCalibrationIndex := currentCalibrationIndex c;
     cursorElement := cursorElement c; highlightBox := highlightBox c;
     currentElement := currentElement c; recognition := recognition c;
     calibrationInterval := calibrationInterval c;
     calibrationOverlay := calibrationOverlay c; statusElement := statusElement c |}.

(** The camera objects: [videoStream], [videoElement], and [canvas]/[ctx]. *)
Definition with_video (stream element context : bool) (c : Controller) : Controller :=
  {| isActive := isActive c; isCalibrated := isCalibrated c; ws := ws c;
     videoStream := stream; videoElement := element; ctx := context;
     calibrationPoints := calibrationPoints c;
     currentCalibrationIndex := currentCalibrationIndex c;
     cursorElement := cursorElement c; highlightBox := highlightBox c;
     currentElement := currentElement c; recognition := recognition c;
     calibrationInterval := calibrationInterval c;
     calibrationOverlay := calibrationOverlay c; statusElement := statusElement c |}.

Definition with_calibrationPoints (v : list Point) (c : Controller) : Controller :=
  {| isActive := isActive c; isCalibrated := isCalibrated c; ws := ws c;
     videoStream := videoStream c; videoElement := videoElement c; ctx := ctx c;
     calibrationPoints := v;
     currentCalibrationIndex := currentCalibrationIndex c;
     cursorElement := cursorElement c; highlightBox := highlightBox c;
     currentElement := currentElement c; recognition := recognition c;
     calibrationInterval := calibrationInterval c;
     calibrationOverlay := calibrationOverlay c; statusElement := statusElement c |}.

Definition with_currentCalibrationIndex (v : nat) (c : Controller) : Controller :=
  {| isActive := isActive c; isCalibrated := isCalibrated c; ws := ws c;
     videoStream := videoStream c; videoElement := videoElement c; ctx := ctx c;
     calibrationPoints := calibrationPoints c;
     currentCalibrationIndex := v;
     cursorElement := cursorElement c; highlightBox := highlightBox c;
     currentElement := currentElement c; recognition := recognition c;
     calibrationInterval := calibrationInterval c;
     calibrationOverlay := calibrationOverlay c; statusElement := statusElement c |}.

Definition with_cursorElement (v : CursorElement) (c : Controller) : Controller :=
  {| isActive := isActive c; isCalibrated := isCalibrated c; ws := ws c;
     videoStream := videoStream c; videoElement := videoElement c; ctx := ctx c;
     calibrationPoints := calibrationPoints c;
     currentCalibrationIndex := currentCalibrationIndex c;
     cursorElement := v; highlightBox := highlightBox c;
     currentElement := currentElement c; recognition := recognition c;
     calibrationInterval := calibrationInterval c;
     calibrationOverlay := calibrationOverlay c; statusElement := statusElement c |}.

Definition with_highlightBox (v : HighlightBox) (c : Controller) : Controller :=
  {| isActive := isActive c; isCalibrated := isCalibrated c; ws := ws c;
     videoStream := videoStream c; videoElement := videoElement c; ctx := ctx c;
     calibrationPoints := calibrationPoints c;
     currentCalibrationIndex := currentCalibrationIndex c;
     cursorElement := cursorElement c; highlightBox := v;
     currentElement := currentElement c; recognition := recognition c;
     calibrationInterval := calibrationInterval c;
     calibrationOverlay := calibrationOverlay c; statusElement := statusElement c |}.

Definition with_currentElement (v : option Element) (c : Controller) : Controller :=
  {| isActive := isActive c; isCalibrated := isCalibrated c; ws := ws c;
     videoStream := videoStream c; videoElement := videoElement c; ctx := ctx c;
     calibrationPoints := calibrationPoints c;
     currentCalibrationIndex := currentCalibrationIndex c;
     cursorElement := cursorElement c; highlightBox := highlightBox c;
     currentElement := v; recognition := recognition c;
     calibrationInterval := calibrationInterval c;
     calibrationOverlay := calibrationOverlay c; statusElement := statusElement c |}.

Definition with_recognition (v : option bool) (c : Controller) : Controller :=
  {| isActive := isActive c; isCalibrated := isCalibrated c; ws := ws c;
     videoStream := videoStream c; videoElement := videoElement c; ctx := ctx c;
     calibrationPoints := calibrationPoints c;
     currentCalibrationIndex := currentCalibrationIndex c;
     cursorElement := cursorElement c; highlightBox := highlightBox c;
     currentElement := currentElement c; recognition := v;
     calibrationInterval := calibrationInterval c;
     calibrationOverlay := calibrationOverlay c; statusElement := statusElement c |}.

Definition with_calibrationInterval (v : option nat) (c : Controller) : Controller :=
  {| isActive := isActive c; isCalibrated := isCalibrated c; ws := ws c;
     videoStream := videoStream c; videoElement := videoElement c; ctx := ctx c;
     calibrationPoints := calibrationPoints c;
     currentCalibrationIndex := currentCalibrationIndex c;
     cursorElement := cursorElement c; highlightBox := highlightBox c;
     currentElement := currentElement c; recognition := recognition c;
     calibrationInterval := v;
     calibrationOverlay := calibrationOverlay c; statusElement := statusElement c |}.

Definition with_calibrationOverlay (v : CalibrationOverlay) (c : Controller) : Controller :=
  {| isActive := isActive c; isCalibrated := isCalibrated c; ws := ws c;
     videoStream := videoStream c; videoElement := videoElement c; ctx := ctx c;
     calibrationPoints := calibrationPoints c;
     currentCalibrationIndex := currentCalibrationIndex c;
     cursorElement := cursorElement c; highlightBox := highlightBox c;
     currentElement := currentElement c; recognition := recognition c;
     calibrationInterval := calibrationInterval c;
     calibrationOverlay := v; statusElement := statusElement c |}.

Definition with_statusElement (v : StatusElement) (c : Controller) : Controller :=
  {| isActive := isActive c; isCalibrated := isCalibrated c; ws := ws c;
     videoStream := videoStream c; videoElement := videoElement c; ctx := ctx c;
     calibrationPoints := calibrationPoints c;
     currentCalibrationIndex := currentCalibrationIndex c;
     cursorElement := cursorElement c; highlightBox := highlightBox c;
     currentElement := currentElement c; recognition := recognition c;
     calibrationInterval := calibrationInterval c;
     calibrationOverlay := calibrationOverlay c; statusElement := v |}.

Definition with_wire (v : list WireEvent) (b : Browser) : Browser :=
  {| wire := v; camera := camera b; storageActive := storageActive b;
     styles := styles b; clicks := clicks b; alerts := alerts b;
     timers := timers b; rafQueue := rafQueue b |}.

Definition with_camera (v : Frame) (b : Browser) : Browser :=
  {| wire := wire b; camera := v; storageActive := storageActive b;
     styles := styles b; clicks := clicks b; alerts := alerts b;
     timers := timers b; rafQueue := rafQueue b |}.

Definition with_storageActive (v : bool) (b : Browser) : Browser :=
  {| wire := wire b; camera := camera b; storageActive := v;
     styles := styles b; clicks := clicks b; alerts := alerts b;
     timers := timers b; rafQueue := rafQueue b |}.

Definition with_styles (v : gmap nat string) (b : Browser) : Browser :=
  {| wire := wire b; camera := camera b; storageActive := storageActive b;
     styles := v; clicks := clicks b; alerts := alerts b;
     timers := timers b; rafQueue := rafQueue b |}.

Definition with_clicks (v : list nat) (b : Browser) : Browser :=
  {| wire := wire b; camera := camera b; storageActive := storageActive b;
     styles := styles b; clicks := v; alerts := alerts b;
     timers := timers b; rafQueue := rafQueue b |}.

Definition with_alerts (v : list string) (b : Browser) : Browser :=
  {| wire := wire b; camera := camera b; storageActive := storageActive b;
     styles := styles b; clicks := clicks b; alerts := v;
     timers := timers b; rafQueue := rafQueue b |}.

Definition with_timers (v : list (nat * TimerAction)) (b : Browser) : Browser :=
  {| wire := wire b; camera := camera b; storageActive := storageActive b;
     styles := styles b; clicks := clicks b; alerts := alerts b;
     timers := v; rafQueue := rafQueue b |}.

Definition with_rafQueue (v : list RafCallback) (b : Browser) : Browser :=
  {| wire := wire b; camera := camera b; storageActive := storageActive b;
     styles := styles b; clicks := clicks b; alerts := alerts b;
     timers := timers b; rafQueue := v |}.

(** ** Browser primitives *)

(** [setTimeout(action, delay)]. *)
Definition setTimeout (action : TimerAction) (delay : nat) : Js unit :=
  modify_env (fun b => with_timers (timers b ++ [(delay, action)]) b).

Definition requestAnimationFrame (cb : RafCallback) : Js unit :=
  modify_env (fun b => with_rafQueue (rafQueue b ++ [cb]) b).

Definition alert (message : string) : Js unit :=
  modify_env (fun b => with_alerts (alerts b ++ [message]) b).

(** [this.ws.send(JSON.stringify({ command: ... }))].  On [null] the property
    access throws; [WebSocket.send] throws while connecting, transmits when
    open, and drops the data once the socket is closing or closed. *)
Definition ws_send (c : Command) : Js unit :=
  t <- get_this ;;
  match ws t with
  | None => throw TypeError
  | Some CONNECTING => throw InvalidStateError
  | Some OPEN => modify_env (fun b => with_wire (wire b ++ [Sent c]) b)
  | Some CLOSING | Some CLOSED => ret tt
  end.

(** [this.ws.close()]. *)
Definition ws_close : Js unit :=
  t <- get_this ;;
  match ws t with
  | None => throw TypeError
  | Some CONNECTING | Some OPEN =>
      modify_this (with_ws (Some CLOSING)) ;;
      modify_env (fun b => with_wire (wire b ++ [Closed]) b)
  | Some CLOSING | Some CLOSED => ret tt
  end.

(** [this.ws && this.ws.readyState === WebSocket.OPEN]. *)
Definition ws_is_open (c : Controller) : bool :=
  match ws c with
  | Some OPEN => true
  | _ => false
  end.

(** [when b m] is [if (b) { m }]. *)
Definition when (b : bool) (m : Js unit) : Js unit := if b then m else ret tt.

(** ** The methods of [EyeMouseController] *)

Definition showStatus (message : string) : Js unit :=
  modify_this (with_statusElement {| st_display := true; st_text := message |}).

Definition hideStatus : Js unit :=
  modify_this (fun c =>
    with_statusElement
      {| st_display := false; st_text := st_text (statusElement c) |} c).

Definition set_cursor_display (v : bool) : Js unit :=
  modify_this (fun c =>
    with_cursorElement
      {| cursor_display := v; cursor_left := cursor_left (cursorElement c);
         cursor_top := cursor_top (cursorElement c) |} c).

(** [this.highlightBox.style.display = 'none']. *)
Definition hide_highlight : Js unit :=
  modify_this (fun c =>
    with_highlightBox
      {| hl_display := false; hl_left := hl_left (highlightBox c);
         hl_top := hl_top (highlightBox c); hl_width := hl_width (highlightBox c);
         hl_height := hl_height (highlightBox c) |} c).

(** [this.calibrationOverlay.style.display = ...]. *)
Definition set_overlay_display (v : bool) : Js unit :=
  modify_this (fun c =>
    with_calibrationOverlay
      {| ov_display := v; ov_content := ov_content (calibrationOverlay c) |} c).

(** [this.calibrationOverlay.innerHTML = ...]. *)
Definition set_overlay_content (v : OverlayContent) : Js unit :=
  modify_this (fun c =>
    with_calibrationOverlay
      {| ov_display := ov_display (calibrationOverlay c); ov_content := v |} c).

(** The controller after [constructor] and [createOverlay]: every overlay
    element is created with [display: none]. *)
Definition new_controller : Controller :=
  {| isActive := false; isCalibrated := false; ws := None;
     videoStream := false; videoElement := false; ctx := false;
     calibrationPoints := []; currentCalibrationIndex := 0;
     cursorElement := {| cursor_display := false; cursor_left := 0; cursor_top := 0 |};
     highlightBox := {| hl_display := false; hl_left := 0; hl_top := 0;
                        hl_width := 0; hl_height := 0 |};
     currentElement := None; recognition := None; calibrationInterval := None;
     calibrationOverlay := {| ov_display := false; ov_content := Blank |};
     statusElement := {| st_display := false; st_text := "" |} |}.

(** A freshly loaded page; [stored] is the persisted [isActive] flag. *)
Definition new_page (stored : bool) : World :=
  {| this := new_controller;
     env := {| wire := []; camera := ""; storageActive := stored; styles := ∅;
               clicks := []; alerts := []; timers := []; rafQueue := [] |} |}.

(** [init], up to the listeners it installs ([speech] says whether
    [webkitSpeechRecognition] exists). *)
Definition init (speech : bool) : Js unit :=
  when speech (modify_this (with_recognition (Some false))) ;;
  b <- get_env ;;
  when (storageActive b) (setTimeout AutoActivate 1000).

(** [connectWebSocket]: the promise resolves in [onopen] and rejects in
    [onerror]. *)
Definition connectWebSocket (opens : bool) : Js unit :=
  modify_this (with_ws (Some CONNECTING)) ;;
  if opens then modify_this (with_ws (Some OPEN))
  else (modify_this (with_ws (Some CLOSED)) ;; throw SocketError).

(** [recognition.start()] throws when recognition has already started. *)
Definition recognition_start : Js unit :=
  t <- get_this ;;
  match recognition t with
  | None => ret tt
  | Some true => throw InvalidStateError
  | Some false => modify_this (with_recognition (Some true))
  end.

Definition recognition_stop : Js unit :=
  t <- get_this ;;
  match recognition t with
  | None => ret tt
  | Some _ => modify_this (with_recognition (Some false))
  end.

(** [activate].  [media] is the outcome of [getUserMedia] ([Some message]
    when it rejects) and [opens] that of the connection attempt. *)
Definition activate (media : option string) (opens : bool) : Js unit :=
  t <- get_this ;;
  if isActive t then ret tt else
  showStatus "Activating EyeMouse..." ;;
  recognition_start ;;
  try_catch
    (match media with
     | Some message => throw (MediaError message)
     | None => ret tt
     end ;;
     modify_this (with_video true true true) ;;
     connectWebSocket opens ;;
     ws_send load_model ;;
     modify_this (with_isActive true) ;;
     set_cursor_display true ;;
     modify_env (with_storageActive true))
    (fun error =>
       showStatus ("Failed: " +:+ exn_message error) ;;
       setTimeout HideStatus 3000).

(** [deactivate(cleanup = true)].  The [await] on the storage write is the
    only suspension point; the method is modelled as one step. *)
Definition deactivate (cleanup : bool) : Js unit :=
  t <- get_this ;;
  if negb (isActive t) then ret tt else
  modify_this (with_isActive false) ;;
  set_cursor_display false ;;
  hide_highlight ;;
  hideStatus ;;
  modify_env (with_storageActive false) ;;
  t <- get_this ;;
  when (cleanup && ws_is_open t) (ws_send stop) ;;
  recognition_stop ;;
  t <- get_this ;;
  when (videoStream t) (modify_this (with_video false (videoElement t) (ctx t))) ;;
  t <- get_this ;;
  when (bool_decide (is_Some (ws t))) (setTimeout CloseSocket 100) ;;
  t <- get_this ;;
  when (videoElement t) (modify_this (with_video (videoStream t) false (ctx t))).

(** The closure [deactivate] hands to [setTimeout]. *)
Definition closeSocketLater : Js unit :=
  t <- get_this ;;
  when (bool_decide (is_Some (ws t))) (ws_close ;; modify_this (with_ws None)).

Definition toggle (media : option string) (opens : bool) : Js unit :=
  t <- get_this ;;
  if isActive t then deactivate true else activate media opens.

(** The [beforeunload] listener of [init]. *)
Definition beforeunload : Js unit :=
  t <- get_this ;;
  when (isActive t) (when (bool_decide (is_Some (ws t))) ws_close).

Definition startCalibration : Js unit :=
  showStatus "Starting calibration..." ;;
  set_overlay_display true ;;
  modify_this (with_currentCalibrationIndex 0) ;;
  ws_send start_calibration.

Definition startTune : Js unit :=
  t <- get_this ;;
  if negb (isCalibrated t) then alert "Please calibrate first before tuning!" else
  showStatus "Starting tune with 10 random points..." ;;
  set_overlay_display true ;;
  modify_this (with_currentCalibrationIndex 0) ;;
  ws_send start_tune.

(** [captureFrame]: [this.ctx.drawImage(this.videoElement, ...)] throws on a
    [null] context and on a [null] image source. *)
Definition captureFrame : Js Frame :=
  t <- get_this ;;
  if negb (ctx t) then throw TypeError else
  if negb (videoElement t) then throw TypeError else
  b <- get_env ;;
  ret (camera b).

(** The closure [sendFrame] of [startSendingCalibrationFrames]. *)
Definition sendFrame : Js unit :=
  t <- get_this ;;
  if negb (isActive t) || isCalibrated t then ret tt else
  frameData <- captureFrame ;;
  t <- get_this ;;
  when (ws_is_open t) (ws_send (calibration_frame frameData)) ;;
  requestAnimationFrame SendFrame.

Definition startSendingCalibrationFrames : Js unit := sendFrame.

(** [Math.round]. *)
Definition Math_round (q : Q) : Z := Qfloor (q + (1 # 2)).

Definition updateCalibrationOverlay (message : string) (progress : Q) : Js unit :=
  set_overlay_content (FaceCountdown message (Math_round (progress * 100))).

(** [this.calibrationPoints[this.currentCalibrationIndex]], then [point.x]:
    reading a property of [undefined] throws. *)
Definition currentPoint : Js Point :=
  t <- get_this ;;
  match calibrationPoints t !! currentCalibrationIndex t with
  | Some point => ret point
  | None => throw TypeError
  end.

Definition updateCalibrationPointPulse (doc : Document) (progress : Q) : Js unit :=
  point <- currentPoint ;;
  t <- get_this ;;
  set_overlay_content
    (PulsePoint (point_x point * innerWidth doc) (point_y point * innerHeight doc)
       progress (currentCalibrationIndex t + 1)).

Definition updateCalibrationPointCapture (doc : Document) (progress : Q) : Js unit :=
  point <- currentPoint ;;
  t <- get_this ;;
  set_overlay_content
    (CapturePoint (point_x point * innerWidth doc) (point_y point * innerHeight doc)
       (360 * (1 - progress)) (currentCalibrationIndex t + 1)).

(** [showCalibrationPoint] only logs. *)
Definition showCalibrationPoint (index : nat) : Js unit := ret tt.

Definition hideCalibration : Js unit :=
  t <- get_this ;;
  when (bool_decide (is_Some (calibrationInterval t)))
       (modify_this (with_calibrationInterval None)) ;;
  set_overlay_display false.

(** The closure [trackLoop] of [startTracking]. *)
Definition trackLoop : Js unit :=
  t <- get_this ;;
  if negb (isActive t) || negb (isCalibrated t) then ret tt else
  frameData <- captureFrame ;;
  ws_send (track_gaze frameData) ;;
  requestAnimationFrame TrackLoop.

Definition startTracking : Js unit := trackLoop.

(** ** Targeting *)

Definition clickableTags : list string :=
  ["A"; "BUTTON"; "INPUT"; "SELECT"; "TEXTAREA"; "LABEL"].

Definition clickableRoles : list string :=
  ["button"; "link"; "menuitem"; "tab"; "checkbox"; "radio"].

(** The last test of [isClickable], on the lower-cased class name. *)
Definition clickableClass (lowered : string) : bool :=
  includes lowered "btn" || includes lowered "button" ||
  includes lowered "link" || includes lowered "clickable".

(** [isClickable(element)].  It reads the element only, so it is a
    completion rather than a method of the monad.  [element.className
    .toLowerCase()] is a call of [undefined] when the class name is not a
    string; the [typeof] test that follows it is then never reached. *)
Definition isClickable (element : option Element) : Completion bool :=
  match element with
  | None => Return false
  | Some el =>
      if bool_decide (tagName el ∈ clickableTags) then Return true else
      if onclick el || truthy_opt (getAttribute el "onclick") then Return true else
      if match getAttribute el "role" with
         | Some role => truthy role && bool_decide (role ∈ clickableRoles)
         | None => false
         end then Return true else
      if String.eqb (cursor el) "pointer" then Return true else
      if isContentEditable el then Return true else
      match className el with
      | ClassAnimated _ => Throw TypeError
      | ClassString s =>
          if clickableClass (toLowerCase s) then Return true else Return false
      end
  end.

(** A completion computed outside the monad, brought into it. *)
Definition lift {A} (c : Completion A) : Js A := fun w => (c, w).

(** [element === document.body || element === document.documentElement]. *)
Definition is_body_or_root (doc : Document) (el : Element) : bool :=
  same_node el (body doc) || same_node el (documentElement doc).

Definition updateHighlight (doc : Document) (element : option Element) : Js unit :=
  match element with
  | None => hide_highlight
  | Some el =>
      if is_body_or_root doc el then hide_highlight else
      let rect := boundingClientRect el in
      modify_this (with_highlightBox
        {| hl_display := true;
           hl_left := rect_left rect + scrollX doc;
           hl_top := rect_top rect + scrollY doc;
           hl_width := rect_width rect;
           hl_height := rect_height rect |})
  end.

(** [element.style.background], the empty string when never set. *)
Definition background (b : Browser) (el : Element) : string :=
  default "" (styles b !! node el).

Definition clickElement (element : Element) : Js unit :=
  b <- get_env ;;
  let originalBg := background b element in
  modify_env (fun b => with_styles (<[node element := "rgba(0, 255, 0, 0.3)"]> (styles b)) b) ;;
  setTimeout (RevertBackground (node element) originalBg) 200 ;;
  modify_env (fun b => with_clicks (clicks b ++ [node element]) b).

(** [element && element !== this.currentElement]. *)
Definition is_new_element (element : option Element) (current : option Element) : bool :=
  match element, current with
  | None, _ => false
  | Some _, None => true
  | Some el, Some cur => negb (same_node el cur)
  end.

(** The first block of [updateGaze], under [data.x !== null && data.y !== null]. *)
Definition updateGaze_target (doc : Document) (x y : option Q) : Js unit :=
  match x, y with
  | Some dx, Some dy =>
      let px := (dx * innerWidth doc)%Q in
      let py := (dy * innerHeight doc)%Q in
      modify_this (fun c =>
        with_cursorElement
          {| cursor_display := cursor_display (cursorElement c);
             cursor_left := (px - 10)%Q; cursor_top := (py - 10)%Q |} c) ;;
      let element := elementFromPoint doc px py in
      t <- get_this ;;
      if is_new_element element (currentElement t) then
        clickable <- lift (isClickable element) ;;
        if clickable then
          updateHighlight doc element ;;
          modify_this (with_currentElement element)
        else
          hide_highlight ;;
          modify_this (with_currentElement None)
      else ret tt
  | _, _ => ret tt
  end.

(** The second block, [if (data.double_blink && this.currentElement)]. *)
Definition updateGaze_blink (double_blink : bool) : Js unit :=
  t <- get_this ;;
  match currentElement t with
  | Some el => when double_blink (clickElement el)
  | None => ret tt
  end.

Definition updateGaze (doc : Document) (x y : option Q) (double_blink : bool) : Js unit :=
  updateGaze_target doc x y ;;
  updateGaze_blink double_blink.

(** ** Message dispatch *)

Definition handleBackendMessage (doc : Document) (data : BackendMessage) : Js unit :=
  match data with
  | calibration_started points =>
      modify_this (with_calibrationPoints points) ;;
      showStatus "Look at the screen and hold still..." ;;
      set_overlay_display true ;;
      startSendingCalibrationFrames
  | calibration_face_countdown progress message =>
      if truthy_opt message
      then updateCalibrationOverlay (default "" message) progress
      else updateCalibrationOverlay
             ("Detecting face... " +:+ pretty (Math_round (progress * 100)) +:+ "%")
             progress
  | calibration_point_start index =>
      modify_this (with_currentCalibrationIndex index) ;;
      showCalibrationPoint index
  | calibration_pulse progress => updateCalibrationPointPulse doc progress
  | calibration_capture progress => updateCalibrationPointCapture doc progress
  | calibration_complete success samples is_tune =>
      if success then
        modify_this (with_isCalibrated true) ;;
        hideCalibration ;;
        let msg :=
          if is_tune
          then "Tune complete! Model improved with " +:+ pretty samples +:+ " total samples"
          else "Calibration complete! (" +:+ pretty samples +:+ " samples)" in
        showStatus msg ;;
        setTimeout HideStatus 3000 ;;
        startTracking
      else ret tt
  | model_loaded success =>
      if success then
        modify_this (with_isCalibrated true) ;;
        showStatus "Model loaded. Tracking started." ;;
        setTimeout HideStatus 2000 ;;
        startTracking
      else startCalibration
  | gaze_update x y double_blink => updateGaze doc x y double_blink
  | backend_error _ => ret tt
  | other_type _ => ret tt
  end.

(** ** The event loop

    Everything that can happen to the page.  A task that throws leaves its
    mutations behind and the loop goes on. *)

Definition runRaf (cb : RafCallback) : Js unit :=
  match cb with
  | SendFrame => sendFrame
  | TrackLoop => trackLoop
  end.

(** One display refresh: the callbacks queued so far run in order, each one
    re-arming itself if it wants another frame. *)
Definition animationFrame (image : Frame) (w : World) : World :=
  let queued := rafQueue (env w) in
  let w0 := run (modify_env (fun b => with_rafQueue [] (with_camera image b))) w in
  foldl (fun acc cb => run (runRaf cb) acc) w0 queued.

Definition runTimer (media : option string) (opens : bool) (a : TimerAction) : Js unit :=
  match a with
  | HideStatus => hideStatus
  | CloseSocket => closeSocketLater
  | RevertBackground n originalBg =>
      modify_env (fun b => with_styles (<[n := originalBg]> (styles b)) b)
  | AutoActivate => activate media opens
  end.

Inductive Input :=
| ToggleMessage (media : option string) (opens : bool)   (* [TOGGLE_EYEMOUSE] *)
| TuneMessage                                            (* [TUNE] *)
| RecalibrateMessage                                     (* [RECALIBRATE] *)
| KeyDown (key : string)
| BeforeUnload
| SocketMessage (data : BackendMessage)                  (* [ws.onmessage] *)
| SocketClose                                            (* the connection is lost *)
| AnimationFrame (image : Frame)
| Timeout (i : nat) (media : option string) (opens : bool).

Definition dispatch (doc : Document) (i : Input) (w : World) : World :=
  match i with
  | ToggleMessage media opens => run (toggle media opens) w
  | TuneMessage => run startTune w
  | RecalibrateMessage => run startCalibration w
  | KeyDown key =>
      if String.eqb key "r" && isActive (this w) then run startCalibration w else w
  | BeforeUnload => run beforeunload w
  | SocketMessage data =>
      (* message events fire on an open socket only *)
      if ws_is_open (this w) then run (handleBackendMessage doc data) w else w
  | SocketClose =>
      match ws (this w) with
      | Some _ => run (modify_this (with_ws (Some CLOSED))) w
      | None => w
      end
  | AnimationFrame image => animationFrame image w
  | Timeout i media opens =>
      match timers (env w) !! i with
      | Some (_, a) =>
          run (modify_env (fun b => with_timers (delete i (timers b)) b) ;;
               runTimer media opens a) w
      | None => w
      end
  end.

(** A page's history: the inputs in the order they happened. *)
Definition history (doc : Document) (inputs : list Input) (w : World) : World :=
  foldl (fun acc i => dispatch doc i acc) w inputs.

(** ** Observations on a run *)

(** How many [calibration_frame] commands a wire trace carries. *)
Fixpoint calibrationFrames (l : list WireEvent) : nat :=
  match l with
  | [] => 0
  | Sent (calibration_frame _) :: r => S (calibrationFrames r)
  | _ :: r => calibrationFrames r
  end.

(** How many [track_gaze] commands a wire trace carries. *)
Fixpoint trackFrames (l : list WireEvent) : nat :=
  match l with
  | [] => 0
  | Sent (track_gaze _) :: r => S (trackFrames r)
  | _ :: r => trackFrames r
  end.



(** The pending calibration-stream and tracking-stream callbacks. *)
Fixpoint armedSendFrame (q : list RafCallback) : nat :=
  match q with
  | [] => 0
  | SendFrame :: r => S (armedSendFrame r)
  | TrackLoop :: r => armedSendFrame r
  end.

Fixpoint armedTrackLoop (q : list RafCallback) : nat :=
  match q with
  | [] => 0
  | TrackLoop :: r => S (armedTrackLoop r)
  | SendFrame :: r => armedTrackLoop r
  end.

(** Several display refreshes, with the camera image at each. *)
Definition animationFrames (images : list Frame) (w : World) : World :=
  foldl (fun acc image => animationFrame image acc) w images.

(** The camera objects [captureFrame] needs are there. *)
Definition cameraReady (c : Controller) : bool := ctx c && videoElement c.

(** The tracking stream can run: the session is active and calibrated, the
    channel is open and the camera is set up. *)
Definition tracking (c : Controller) : Prop :=
  isActive c = true ∧ isCalibrated c = true ∧ ws c = Some OPEN ∧ cameraReady c = true.

(** The calibration stream can run: the session is active and not yet
    calibrated, and the camera is set up. *)
Definition calibrating (c : Controller) : Prop :=
  isActive c = true ∧ isCalibrated c = false ∧ cameraReady c = true.

(** What [k] calibration-stream callbacks put on the wire: a frame each
    when the socket is open, nothing otherwise. *)
Definition calibration_frame_on (c : Controller) (image : Frame) (k : nat) : list WireEvent :=
  if ws_is_open c then repeat (Sent (calibration_frame image)) k else [].

(** From [w] to [w'] the session stays calibrated and no calibration frame
    goes out. *)
Definition quiet (w w' : World) : Prop :=
  isCalibrated (this w') = true ∧
  calibrationFrames (wire (env w')) = calibrationFrames (wire (env w)).

(** ** The six signals of the clickability classifier, as the specification
    lists them *)

Definition tag_signal (el : Element) : bool :=
  bool_decide (tagName el ∈ clickableTags).

Definition handler_signal (el : Element) : bool :=
  onclick el || truthy_opt (getAttribute el "onclick").

Definition role_signal (el : Element) : bool :=
  match getAttribute el "role" with
  | Some role => bool_decide (role ∈ clickableRoles)
  | None => false
  end.

Definition pointer_signal (el : Element) : bool := String.eqb (cursor el) "pointer".

Definition editable_signal (el : Element) : bool := isContentEditable el.

(** The class attribute of an element, whatever the type of [className]. *)
Definition class_text (el : Element) : string :=
  match className el with
  | ClassString s => s
  | ClassAnimated baseVal => baseVal
  end.

Definition class_signal (el : Element) : bool :=
  clickableClass (toLowerCase (class_text el)).

Definition no_signal (el : Element) : bool :=
  negb (tag_signal el || handler_signal el || role_signal el ||
        pointer_signal el || editable_signal el || class_signal el).

(** ** The calibration state graph of the specification

    The controller keeps no state variable for the calibration phase.  The
    graph below follows the specification's text (section 4.2), so that
    what it says about each state can be held against the code. *)

Inductive CalState :=
| Idle
| AwaitingFaceLock
| PointPulse (index : nat)
| PointCapture (index : nat).

Inductive CalEvent :=
| LocalStart                         (* [start_calibration] / [start_tune] issued *)
| Inbound (data : BackendMessage).

Definition cal_step (s : CalState) (e : CalEvent) : CalState :=
  match s, e with
  | Idle, LocalStart => AwaitingFaceLock
  | AwaitingFaceLock, Inbound (calibration_face_countdown _ _) => AwaitingFaceLock
  | AwaitingFaceLock, Inbound (calibration_started _) => PointPulse 0
  | PointPulse i, Inbound (calibration_pulse _) => PointPulse i
  | PointPulse i, Inbound (calibration_capture _) => PointCapture i
  | PointCapture i, Inbound (calibration_capture _) => PointCapture i
  | PointCapture _, Inbound (calibration_point_start j) => PointPulse j
  | PointCapture _, Inbound (calibration_complete _ _ _) => Idle
  | _, _ => s
  end.

Definition cal_run (events : list CalEvent) : CalState :=
  foldl cal_step Idle events.

Definition streaming_state (s : CalState) : bool :=
  match s with
  | Idle => false
  | _ => true
  end.

(** ** A sample page *)

Definition sample_element (n : nat) (tag pointer : string) (class : ClassName) : Element :=
  {| node := n; tagName := tag; onclick := false; attributes := ∅;
     cursor := pointer; isContentEditable := false; className := class;
     boundingClientRect :=
       {| rect_left := 10; rect_top := 20; rect_width := 30; rect_height := 40 |} |}.

Definition html_element : Element := sample_element 0 "HTML" "auto" (ClassString "").

(** A [body] styled with [cursor: pointer]. *)
Definition body_element : Element := sample_element 1 "BODY" "pointer" (ClassString "").

Definition button_element : Element := sample_element 2 "BUTTON" "auto" (ClassString "").

Definition anchor_element : Element := sample_element 3 "A" "auto" (ClassString "").

Definition plain_div : Element := sample_element 4 "DIV" "auto" (ClassString "card").

Definition role_div : Element :=
  {| node := 5; tagName := "DIV"; onclick := false;
     attributes := {[ "role" := "button" ]};
     cursor := "auto"; isContentEditable := false; className := ClassString "";
     boundingClientRect :=
       {| rect_left := 0; rect_top := 0; rect_width := 10; rect_height := 10 |} |}.

Definition pointer_div : Element := sample_element 6 "DIV" "pointer" (ClassString "").

(** An inline [<svg class="icon">]. *)
Definition svg_icon : Element := sample_element 7 "svg" "auto" (ClassAnimated "icon").

(** A page 1000 by 800 pixels: a button in the left tenth, an icon next to
    it, the bare body elsewhere. *)
Definition sample_page : Document :=
  {| elementFromPoint := fun x _ =>
       if Qle_bool x 100 then Some button_element
       else if Qle_bool x 200 then Some svg_icon
       else Some body_element;
     body := body_element; documentElement := html_element;
     innerWidth := 1000; innerHeight := 800; scrollX := 0; scrollY := 5 |}.

Definition five_points : list Point :=
  [ {| point_x := 1 # 2; point_y := 1 # 2 |};
    {| point_x := 1 # 10; point_y := 1 # 10 |};
    {| point_x := 9 # 10; point_y := 1 # 10 |};
    {| point_x := 1 # 10; point_y := 9 # 10 |};
    {| point_x := 9 # 10; point_y := 9 # 10 |} ].

(** Activation on a fresh page; the backend has no saved model, so the
    controller asks for a calibration. *)
Definition awaiting_world : World :=
  history sample_page
    [ToggleMessage None true; SocketMessage (model_loaded false)]
    (new_page false).

(** ... and the backend has started it: the calibration stream runs. *)
Definition calibrating_world : World :=
  history sample_page
    [SocketMessage (calibration_started five_points); AnimationFrame "frame1"]
    awaiting_world.

(** ... and completed it: the tracking stream runs. *)
Definition tracking_world : World :=
  history sample_page
    [SocketMessage (calibration_complete true 25 false); AnimationFrame "frame2"]
    calibrating_world.

(** The user deactivates in the middle of a calibration; the socket stays
    open for the grace delay. *)
Definition grace_world : World :=
  history sample_page [ToggleMessage None true] calibrating_world.


(** The connection of a tracking session is lost. *)
Definition disconnected_world : World :=
  history sample_page [SocketClose] tracking_world.

(** A tracking session snapped on the button. *)
Definition snapped_world : World :=
  history sample_page
    [SocketMessage (gaze_update (Some (1 # 20)) (Some (1 # 2)) false)]
    tracking_world.

(** A tuning pass requested on a tracking session, and started by the
    backend. *)
Definition tuning_world : World :=
  history sample_page
    [TuneMessage; SocketMessage (calibration_started five_points)]
    tracking_world.

(** * Properties *)

Ltac js_unfold :=
  unfold run, completion, bind, ret, throw, get_this, get_env, modify_this,
    modify_env, when, lift, try_catch in *.

(** Take a world apart into its fields and compute. *)
Ltac open_world w :=
  destruct w as [[act cal sock stream video context plan idx cursorEl hl
                    snap voice interval overlayEl banner]
                 [sent shot stored tints clicked alerted pending queue]];
  cbn in *; simplify_eq/=.

(** Facts about a concrete run, by evaluation. *)
Ltac by_evaluation := repeat apply conj; vm_compute; reflexivity.

(** The classifier and the element tests stay folded under [cbn]. *)
Arguments isClickable : simpl never.
Arguments is_new_element : simpl never.
Arguments is_body_or_root : simpl never.
Arguments updateHighlight : simpl never.

(** ** The clickability classifier *)

Lemma isClickable_tag (el : Element) :
  tag_signal el = true → isClickable (Some el) = Return true.
Proof. unfold tag_signal, isClickable. intros ->. reflexivity. Qed.

(** A role of the allow-list is a non-empty string, so the JavaScript test
    [role && [...].includes(role)] agrees with membership. *)
Lemma role_signal_truthy (el : Element) :
  role_signal el = true →
  match getAttribute el "role" with
  | Some role => truthy role && bool_decide (role ∈ clickableRoles)
  | None => false
  end = true.
Proof.
  unfold role_signal. destruct (getAttribute el "role") as [role|]; [|done].
  intros H. rewrite H, andb_true_r. unfold truthy.
  destruct (String.eqb_spec role ""); [subst; discriminate H | reflexivity].
Qed.

Lemma isClickable_role (el : Element) :
  role_signal el = true → isClickable (Some el) = Return true.
Proof.
  intros H%role_signal_truthy. unfold isClickable.
  repeat case_match; done.
Qed.

Lemma isClickable_pointer (el : Element) :
  pointer_signal el = true → isClickable (Some el) = Return true.
Proof.
  unfold pointer_signal, isClickable. intros ->.
  repeat case_match; done.
Qed.

Lemma no_signal_checks (el : Element) :
  no_signal el = true →
  bool_decide (tagName el ∈ clickableTags) = false ∧
  onclick el || truthy_opt (getAttribute el "onclick") = false ∧
  match getAttribute el "role" with
  | Some role => truthy role && bool_decide (role ∈ clickableRoles)
  | None => false
  end = false ∧
  String.eqb (cursor el) "pointer" = false ∧
  isContentEditable el = false ∧
  clickableClass (toLowerCase (class_text el)) = false.
Proof.
  unfold no_signal, tag_signal, handler_signal, role_signal, pointer_signal,
    editable_signal, class_signal.
  intros H. apply negb_true_iff in H.
  repeat (apply orb_false_iff in H; destruct H as [H ?]).
  repeat split; try assumption.
  destruct (getAttribute el "role") as [role|]; [|done].
  apply andb_false_iff. by right.
Qed.

(** On an element with a string class name and none of the six signals the
    classifier answers [false]. *)
Lemma isClickable_no_signal_html (el : Element) (s : string) :
  className el = ClassString s → no_signal el = true →
  isClickable (Some el) = Return false.
Proof.
  intros Hc (Ht & Hh & Hr & Hp & He & Hk)%no_signal_checks.
  unfold class_text in Hk. rewrite Hc in Hk.
  unfold isClickable. rewrite Ht, Hh, Hr, Hp, He, Hc, Hk. reflexivity.
Qed.

Example isClickable_anchor : isClickable (Some anchor_element) = Return true.
Proof. reflexivity. Qed.

Example isClickable_role_div : isClickable (Some role_div) = Return true.
Proof. apply isClickable_role. reflexivity. Qed.

Example isClickable_pointer_div : isClickable (Some pointer_div) = Return true.
Proof. reflexivity. Qed.

Example isClickable_plain_div : isClickable (Some plain_div) = Return false.
Proof. reflexivity. Qed.

(** C5 (the classifier answers [false] on an element with none of the six
    signals): on an SVG element, whose [className] is not a string, the
    classifier reaches [element.className.toLowerCase()] and throws instead
    of answering; the three answers [true] hold on every element
    ([isClickable_tag], [isClickable_role], [isClickable_pointer]), and the
    answer [false] holds on string class names
    ([isClickable_no_signal_html]). *)
Theorem C5_isClickable_throws_on_svg (el : Element) (baseVal : string) :
  className el = ClassAnimated baseVal → no_signal el = true →
  isClickable (Some el) = Throw TypeError.
Proof.
  intros Hc (Ht & Hh & Hr & Hp & He & _)%no_signal_checks.
  unfold isClickable. rewrite Ht, Hh, Hr, Hp, He, Hc. reflexivity.
Qed.

Lemma C5_isClickable_throws_on_svg_witness :
  no_signal svg_icon = true ∧ isClickable (Some svg_icon) = Throw TypeError.
Proof.
  split; [reflexivity|].
  apply (C5_isClickable_throws_on_svg svg_icon "icon"); reflexivity.
Defined.

(** ** Gaze samples *)

Lemma updateGaze_target_null (doc : Document) (x y : option Q) (w : World) :
  x = None ∨ y = None → updateGaze_target doc x y w = (Return tt, w).
Proof. intros [-> | ->]; [|destruct x]; reflexivity. Qed.

(** The target block touches the controller only: nothing is clicked,
    tinted or scheduled by it. *)
Lemma updateGaze_target_env (doc : Document) (x y : option Q) (w : World) :
  env (run (updateGaze_target doc x y) w) = env w.
Proof.
  unfold updateGaze_target. destruct x as [dx|], y as [dy|]; try reflexivity.
  js_unfold. cbn.
  destruct (is_new_element _ _); [|reflexivity].
  destruct (isClickable _) as [[]|]; cbn; try reflexivity.
  unfold updateHighlight, hide_highlight. js_unfold.
  repeat case_match; simplify_eq/=; reflexivity.
Qed.

(** C7 (a gaze sample with a null coordinate leaves the snap target and the
    highlight as they are): the target, the highlight box and the cursor are
    unchanged, and the outcome does not depend on the document, which is
    never consulted. *)
Theorem C7_null_gaze_keeps_target
    (doc doc' : Document) (w : World) (x y : option Q) (double_blink : bool) :
  x = None ∨ y = None →
  currentElement (this (run (updateGaze doc x y double_blink) w))
    = currentElement (this w) ∧
  highlightBox (this (run (updateGaze doc x y double_blink) w))
    = highlightBox (this w) ∧
  cursorElement (this (run (updateGaze doc x y double_blink) w))
    = cursorElement (this w) ∧
  updateGaze doc x y double_blink w = updateGaze doc' x y double_blink w.
Proof.
  intros H. unfold run, updateGaze, bind.
  rewrite !(updateGaze_target_null _ _ _ _ H).
  unfold updateGaze_blink, bind, get_this.
  destruct (currentElement (this w)) as [el|] eqn:E; [destruct double_blink|];
    cbn; auto.
Qed.

Lemma C7_null_gaze_keeps_target_witness :
  currentElement (this (run (updateGaze sample_page None (Some (1 # 2)) true) snapped_world))
    = Some button_element.
Proof.
  pose proof (C7_null_gaze_keeps_target sample_page sample_page snapped_world
                None (Some (1 # 2)) true (or_introl eq_refl)) as [H _].
  rewrite H. reflexivity.
Defined.

(** C9 (a double-blink with no current snap target activates nothing): when
    the controller holds no snap target at the point where the double-blink
    is examined, that is once the sample's own coordinates have been
    resolved, the browser side is untouched: no click, no tint, no timer. *)
Theorem C9_double_blink_without_target
    (doc : Document) (w : World) (x y : option Q) :
  currentElement (this (run (updateGaze_target doc x y) w)) = None →
  env (run (updateGaze doc x y true) w) = env w ∧
  clicks (env (run (updateGaze doc x y true) w)) = clicks (env w) ∧
  styles (env (run (updateGaze doc x y true) w)) = styles (env w) ∧
  timers (env (run (updateGaze doc x y true) w)) = timers (env w).
Proof.
  intros H.
  assert (env (run (updateGaze doc x y true) w) = env w) as E.
  { rewrite <- (updateGaze_target_env doc x y w).
    unfold run, updateGaze, bind in *.
    destruct (updateGaze_target doc x y w) as [[[]|e] w1]; [|reflexivity].
    cbn in H. unfold updateGaze_blink, bind, get_this. cbn. rewrite H.
    reflexivity. }
  rewrite E. auto.
Qed.

Lemma C9_double_blink_without_target_witness :
  clicks (env (run (updateGaze sample_page None None true) tracking_world)) = [].
Proof.
  pose proof (C9_double_blink_without_target sample_page tracking_world None None
                eq_refl) as (_ & H & _).
  rewrite H. reflexivity.
Defined.

(** With no snap target before the sample and a null coordinate, nothing is
    activated. *)
Lemma double_blink_null_gaze_without_target
    (doc : Document) (w : World) (x y : option Q) :
  currentElement (this w) = None → x = None ∨ y = None →
  updateGaze doc x y true w = (Return tt, w).
Proof.
  intros Hc Hxy. unfold updateGaze, bind.
  rewrite (updateGaze_target_null _ _ _ _ Hxy).
  unfold updateGaze_blink, bind, get_this. cbn. rewrite Hc. reflexivity.
Qed.

(** The target is resolved before the double-blink is examined: a sample
    that snaps a new element and carries a double-blink clicks that element
    in the same pass. *)
Example double_blink_snaps_then_clicks :
  currentElement (this tracking_world) = None ∧
  clicks (env (run (updateGaze sample_page (Some (1 # 20)) (Some (1 # 2)) true)
                 tracking_world)) = [node button_element].
Proof. split; reflexivity. Qed.



(** The highlight never shows the body or the root element. *)
Lemma updateHighlight_body_or_root (doc : Document) (el : Element) (w : World) :
  is_body_or_root doc el = true →
  updateHighlight doc (Some el) w = hide_highlight w.
Proof. unfold updateHighlight. intros ->. reflexivity. Qed.

(** C6 (the body and the root element never become the snap target): when
    the classifier accepts the body or the root element, [updateHighlight]
    hides the highlight for it, and [updateGaze] goes on to make it the
    snap target all the same; a double-blink carried by the sample, or by a
    later one, then clicks it. *)
Theorem C6_body_becomes_snap_target
    (doc : Document) (w : World) (x y : Q) (double_blink : bool) (el : Element) :
  is_body_or_root doc el = true →
  elementFromPoint doc (x * innerWidth doc)%Q (y * innerHeight doc)%Q = Some el →
  isClickable (Some el) = Return true →
  is_new_element (Some el) (currentElement (this w)) = true →
  currentElement (this (run (updateGaze doc (Some x) (Some y) double_blink) w))
    = Some el ∧
  hl_display (highlightBox (this (run (updateGaze doc (Some x) (Some y) double_blink) w)))
    = false ∧
  clicks (env (run (updateGaze doc (Some x) (Some y) double_blink) w))
    = (clicks (env w) ++ (if double_blink then [node el] else [])).
Proof.
  intros Hroot Hel Hclick Hnew.
  unfold run, updateGaze, updateGaze_target. js_unfold. cbn.
  rewrite Hel, Hnew, Hclick.
  rewrite (updateHighlight_body_or_root _ _ _ Hroot).
  unfold hide_highlight, modify_this, updateGaze_blink, clickElement.
  js_unfold. cbn. destruct double_blink; cbn; rewrite ?app_nil_r; auto.
Qed.

Lemma C6_body_becomes_snap_target_witness :
  currentElement
    (this (run (updateGaze sample_page (Some (1 # 2)) (Some (1 # 2)) true) tracking_world))
    = Some body_element ∧
  clicks
    (env (run (updateGaze sample_page (Some (1 # 2)) (Some (1 # 2)) true) tracking_world))
    = [node body_element].
Proof.
  pose proof (C6_body_becomes_snap_target sample_page tracking_world (1 # 2) (1 # 2)
                true body_element eq_refl eq_refl eq_refl eq_refl) as (H1 & _ & H2).
  split; [exact H1 | rewrite H2; reflexivity].
Defined.

(** A later double-blink, on a sample without coordinates, clicks the body
    as well. *)
Example body_clicked_by_later_double_blink :
  clicks
    (env (history sample_page
            [SocketMessage (gaze_update (Some (1 # 2)) (Some (1 # 2)) false);
             SocketMessage (gaze_update None None true)]
            tracking_world))
    = [node (body sample_page)].
Proof. reflexivity. Qed.

(** ** Tuning *)





(** Nor does one go out when the connection is lost: [send] on a closed
    socket drops the data. *)
Example startTune_on_lost_connection :
  isCalibrated (this disconnected_world) = true ∧
  isActive (this disconnected_world) = true ∧
  wire (env (run startTune disconnected_world)) = wire (env disconnected_world).
Proof. by_evaluation. Qed.

(** ** Closing the channel *)





(** ** An unsuccessful completion *)

(** C4 (an unsuccessful [calibration_complete] clears the calibration state
    and starts no tracking), as amended: the event is ignored; the handler
    returns and the controller and the browser are exactly as before, so no
    tracking is started and the calibrated flag keeps its value, and the
    calibration plan, overlay and point index stay as they were. *)
Theorem C4_unsuccessful_complete_is_ignored
    (doc : Document) (w : World) (samples : nat) (is_tune : bool) :
  handleBackendMessage doc (calibration_complete false samples is_tune) w
    = (Return tt, w).
Proof. reflexivity. Qed.

(** In the middle of a calibration the overlay is up, the plan holds five
    points and the calibration stream runs; after an unsuccessful
    completion all three are as before. *)
Lemma C4_counterexample :
  ov_display
    (calibrationOverlay
       (this (run (handleBackendMessage sample_page (calibration_complete false 0 false))
                calibrating_world))) = true ∧
  calibrationPoints
    (this (run (handleBackendMessage sample_page (calibration_complete false 0 false))
             calibrating_world)) = five_points ∧
  calibrationFrames
    (wire (env (history sample_page
                  [SocketMessage (calibration_complete false 0 false);
                   AnimationFrame "frame2"]
                  calibrating_world)))
    = S (calibrationFrames (wire (env calibrating_world))).
Proof. by_evaluation. Qed.

(** ** The frame streams *)

Lemma calibrationFrames_app (l l' : list WireEvent) :
  calibrationFrames (l ++ l') = calibrationFrames l + calibrationFrames l'.
Proof. induction l as [|[[]|] l IH]; cbn; congruence. Qed.

Lemma trackFrames_app (l l' : list WireEvent) :
  trackFrames (l ++ l') = trackFrames l + trackFrames l'.
Proof. induction l as [|[[]|] l IH]; cbn; congruence. Qed.



(** One pass of [trackLoop] while the tracking stream can run: a frame goes
    out and the loop re-arms itself. *)
Lemma trackLoop_live (w : World) :
  tracking (this w) →
  trackLoop w =
    (Return tt,
     {| this := this w;
        env := with_rafQueue (rafQueue (env w) ++ [TrackLoop])
                 (with_wire (wire (env w) ++ [Sent (track_gaze (camera (env w)))]) (env w)) |}).
Proof.
  intros (Ha & Hc & Hs & Hr). unfold cameraReady in Hr. open_world w.
  apply andb_true_iff in Hr as [-> ->]. reflexivity.
Qed.

(** [sendFrame] gives up as soon as the session is inactive or calibrated. *)
Lemma sendFrame_stopped (w : World) :
  negb (isActive (this w)) || isCalibrated (this w) = true →
  sendFrame w = (Return tt, w).
Proof. intros H. unfold sendFrame, bind, get_this. cbn. rewrite H. reflexivity. Qed.

(** The callbacks of one refresh, while the tracking stream can run. *)
Lemma tracking_callbacks (q : list RafCallback) (w : World) :
  tracking (this w) →
  foldl (fun acc cb => run (runRaf cb) acc) w q =
    {| this := this w;
       env := with_rafQueue (rafQueue (env w) ++ repeat TrackLoop (armedTrackLoop q))
                (with_wire (wire (env w)
                            ++ repeat (Sent (track_gaze (camera (env w)))) (armedTrackLoop q))
                   (env w)) |}.
Proof.
  revert w. induction q as [|[] q IH]; intros w Hw; cbn [foldl armedTrackLoop repeat].
  - destruct w as [c []]. unfold with_rafQueue, with_wire. cbn.
    rewrite !app_nil_r. reflexivity.
  - unfold run at 2. cbn [runRaf]. rewrite sendFrame_stopped.
    + apply IH, Hw.
    + destruct Hw as (_ & -> & _). apply orb_true_r.
  - unfold run at 2. cbn [runRaf]. rewrite (trackLoop_live w Hw). cbn [snd].
    rewrite IH by exact Hw. cbn.
    rewrite <- !app_assoc. reflexivity.
Qed.

Lemma armedTrackLoop_repeat (k : nat) : armedTrackLoop (repeat TrackLoop k) = k.
Proof. induction k; cbn; congruence. Qed.

Lemma armedSendFrame_repeat (k : nat) : armedSendFrame (repeat SendFrame k) = k.
Proof. induction k; cbn; congruence. Qed.

(** One display refresh of a tracking session: one [track_gaze] frame per
    armed loop, each loop armed again, the controller untouched. *)
Lemma tracking_frame (image : Frame) (w : World) :
  tracking (this w) →
  animationFrame image w =
    {| this := this w;
       env := with_rafQueue (repeat TrackLoop (armedTrackLoop (rafQueue (env w))))
                (with_wire
                   (wire (env w)
                    ++ repeat (Sent (track_gaze image)) (armedTrackLoop (rafQueue (env w))))
                   (with_camera image (env w))) |}.
Proof.
  intros Hw. unfold animationFrame. rewrite tracking_callbacks by exact Hw.
  destruct w as [c []]. reflexivity.
Qed.

Lemma tracking_frames (images : list Frame) (w : World) :
  tracking (this w) →
  this (animationFrames images w) = this w ∧
  wire (env (animationFrames images w)) =
    wire (env w)
    ++ flat_map
         (fun image => repeat (Sent (track_gaze image)) (armedTrackLoop (rafQueue (env w))))
         images.
Proof.
  revert w. induction images as [|image images IH]; intros w Hw.
  - cbn. rewrite app_nil_r. auto.
  - unfold animationFrames in *. cbn [foldl flat_map].
    destruct (IH (animationFrame image w)) as [E1 E2].
    { rewrite tracking_frame by exact Hw. exact Hw. }
    rewrite E1, E2. rewrite tracking_frame by exact Hw. cbn.
    rewrite armedTrackLoop_repeat, <- app_assoc. destruct w as [c []]. auto.
Qed.


(** One pass of [sendFrame] while the calibration stream can run. *)
Lemma sendFrame_live (w : World) :
  calibrating (this w) →
  sendFrame w =
    (Return tt,
     {| this := this w;
        env := with_rafQueue (rafQueue (env w) ++ [SendFrame])
                 (with_wire (wire (env w) ++ calibration_frame_on (this w) (camera (env w)) 1)
                    (env w)) |}).
Proof.
  intros (Ha & Hc & Hr). unfold cameraReady in Hr. open_world w.
  apply andb_true_iff in Hr as [-> ->]. unfold calibration_frame_on.
  destruct sock as [[]|]; cbn; rewrite ?app_nil_r; reflexivity.
Qed.

Lemma trackLoop_stopped (w : World) :
  negb (isActive (this w)) || negb (isCalibrated (this w)) = true →
  trackLoop w = (Return tt, w).
Proof. intros H. unfold trackLoop, bind, get_this. cbn. rewrite H. reflexivity. Qed.

Lemma calibration_frame_on_S (c : Controller) (image : Frame) (k : nat) :
  calibration_frame_on c image 1 ++ calibration_frame_on c image k
    = calibration_frame_on c image (S k).
Proof. unfold calibration_frame_on. destruct (ws_is_open c); reflexivity. Qed.

Lemma calibrating_callbacks (q : list RafCallback) (w : World) :
  calibrating (this w) →
  foldl (fun acc cb => run (runRaf cb) acc) w q =
    {| this := this w;
       env := with_rafQueue (rafQueue (env w) ++ repeat SendFrame (armedSendFrame q))
                (with_wire (wire (env w)
                            ++ calibration_frame_on (this w) (camera (env w)) (armedSendFrame q))
                   (env w)) |}.
Proof.
  revert w. induction q as [|[] q IH]; intros w Hw; cbn [foldl armedSendFrame repeat].
  - destruct w as [c []]. unfold with_rafQueue, with_wire, calibration_frame_on. cbn.
    destruct (ws_is_open c); rewrite !app_nil_r; reflexivity.
  - unfold run at 2. cbn [runRaf]. rewrite (sendFrame_live w Hw). cbn [snd].
    rewrite IH by exact Hw. cbn.
    rewrite <- !app_assoc, calibration_frame_on_S. reflexivity.
  - unfold run at 2. cbn [runRaf]. rewrite trackLoop_stopped.
    + apply IH, Hw.
    + destruct Hw as (_ & -> & _). apply orb_true_r.
Qed.

(** One display refresh of a calibrating session: one [calibration_frame]
    per armed loop while the socket is open, each loop armed again. *)
Lemma calibrating_frame (image : Frame) (w : World) :
  calibrating (this w) →
  animationFrame image w =
    {| this := this w;
       env := with_rafQueue (repeat SendFrame (armedSendFrame (rafQueue (env w))))
                (with_wire
                   (wire (env w)
                    ++ calibration_frame_on (this w) image (armedSendFrame (rafQueue (env w))))
                   (with_camera image (env w))) |}.
Proof.
  intros Hw. unfold animationFrame. rewrite calibrating_callbacks by exact Hw.
  destruct w as [c []]. reflexivity.
Qed.



(** ** Once calibrated, no calibration frame

    The calibrated flag is never reset, and [sendFrame] tests it first. *)

Lemma quiet_refl (w : World) : isCalibrated (this w) = true → quiet w w.
Proof. by split. Qed.

Lemma quiet_trans (w1 w2 w3 : World) : quiet w1 w2 → quiet w2 w3 → quiet w1 w3.
Proof. intros [? ?] [? ?]. split; congruence. Qed.

Ltac quiet_cases :=
  unfold quiet, run; cbn; rewrite ?calibrationFrames_app; cbn; split; (reflexivity || lia).

Lemma quiet_activate (media : option string) (opens : bool) (w : World) :
  isCalibrated (this w) = true → quiet w (run (activate media opens) w).
Proof.
  intros H. open_world w.
  destruct act, voice as [[]|], media, opens; quiet_cases.
Qed.

Lemma quiet_deactivate (cleanup : bool) (w : World) :
  isCalibrated (this w) = true → quiet w (run (deactivate cleanup) w).
Proof.
  intros H. open_world w.
  destruct act, cleanup, sock as [[]|], voice as [[]|], stream, video; quiet_cases.
Qed.

Lemma quiet_startTune (w : World) :
  isCalibrated (this w) = true → quiet w (run startTune w).
Proof. intros H. open_world w. destruct sock as [[]|]; quiet_cases. Qed.

Lemma quiet_startCalibration (w : World) :
  isCalibrated (this w) = true → quiet w (run startCalibration w).
Proof. intros H. open_world w. destruct sock as [[]|]; quiet_cases. Qed.

Lemma quiet_beforeunload (w : World) :
  isCalibrated (this w) = true → quiet w (run beforeunload w).
Proof. intros H. open_world w. destruct act, sock as [[]|]; quiet_cases. Qed.

Lemma quiet_trackLoop (w : World) :
  isCalibrated (this w) = true → quiet w (run trackLoop w).
Proof.
  intros H. open_world w. destruct act, context, video, sock as [[]|]; quiet_cases.
Qed.

Lemma quiet_sendFrame (w : World) :
  isCalibrated (this w) = true → quiet w (run sendFrame w).
Proof.
  intros H. unfold run. rewrite sendFrame_stopped; [by apply quiet_refl|].
  rewrite H. apply orb_true_r.
Qed.

Lemma updateGaze_target_flags (doc : Document) (x y : option Q) (w : World) :
  isCalibrated (this (run (updateGaze_target doc x y) w)) = isCalibrated (this w).
Proof.
  unfold updateGaze_target. destruct x as [dx|], y as [dy|]; try reflexivity.
  js_unfold. cbn.
  destruct (is_new_element _ _); [|reflexivity].
  destruct (isClickable _) as [[]|]; cbn; try reflexivity.
  unfold updateHighlight, hide_highlight. js_unfold.
  repeat case_match; simplify_eq/=; reflexivity.
Qed.

Lemma updateGaze_blink_quiet (db : bool) (w : World) :
  this (run (updateGaze_blink db) w) = this w ∧
  wire (env (run (updateGaze_blink db) w)) = wire (env w).
Proof.
  unfold updateGaze_blink, clickElement. js_unfold. cbn.
  destruct (currentElement (this w)), db; cbn; auto.
Qed.

Lemma quiet_updateGaze (doc : Document) (x y : option Q) (db : bool) (w : World) :
  isCalibrated (this w) = true → quiet w (run (updateGaze doc x y db) w).
Proof.
  intros H. unfold quiet.
  pose proof (updateGaze_target_flags doc x y w) as F.
  pose proof (updateGaze_target_env doc x y w) as E.
  unfold run, updateGaze, bind in *.
  destruct (updateGaze_target doc x y w) as [[[]|e] w1]; cbn [snd] in *.
  - destruct (updateGaze_blink_quiet db w1) as [E1 E2]. unfold run in *.
    rewrite E1, E2, F, E. auto.
  - rewrite F, E. auto.
Qed.

Lemma quiet_handleBackendMessage (doc : Document) (data : BackendMessage) (w : World) :
  isCalibrated (this w) = true → quiet w (run (handleBackendMessage doc data) w).
Proof.
  intros H.
  destruct data as [pts|progress message|i|progress|progress
                   |success samples is_tune|success|x y db|m|t];
    cbn [handleBackendMessage].
  - open_world w. destruct act; quiet_cases.
  - open_world w. destruct (truthy_opt message); quiet_cases.
  - open_world w. quiet_cases.
  - open_world w. unfold quiet, run, updateCalibrationPointPulse, currentPoint.
    js_unfold. cbn. destruct (plan !! idx); cbn; auto.
  - open_world w. unfold quiet, run, updateCalibrationPointCapture, currentPoint.
    js_unfold. cbn. destruct (plan !! idx); cbn; auto.
  - open_world w. destruct success; [|quiet_cases].
    destruct act, context, video, sock as [[]|], interval; quiet_cases.
  - open_world w. destruct success.
    + destruct act, context, video, sock as [[]|]; quiet_cases.
    + destruct sock as [[]|]; quiet_cases.
  - by apply quiet_updateGaze.
  - by apply quiet_refl.
  - by apply quiet_refl.
Qed.

Lemma quiet_callbacks (q : list RafCallback) (w : World) :
  isCalibrated (this w) = true →
  quiet w (foldl (fun acc cb => run (runRaf cb) acc) w q).
Proof.
  revert w. induction q as [|cb q IH]; intros w H; cbn [foldl].
  - by apply quiet_refl.
  - assert (quiet w (run (runRaf cb) w)) as Q
      by (destruct cb; [by apply quiet_sendFrame | by apply quiet_trackLoop]).
    eapply quiet_trans; [exact Q|]. apply IH, Q.
Qed.

Lemma quiet_animationFrame (image : Frame) (w : World) :
  isCalibrated (this w) = true → quiet w (animationFrame image w).
Proof.
  intros H. unfold animationFrame.
  eapply quiet_trans; [|apply quiet_callbacks].
  - open_world w. by split.
  - open_world w. reflexivity.
Qed.

Lemma quiet_runTimer
    (media : option string) (opens : bool) (a : TimerAction) (w : World) :
  isCalibrated (this w) = true → quiet w (run (runTimer media opens a) w).
Proof.
  intros H. destruct a; cbn [runTimer].
  - open_world w. quiet_cases.
  - open_world w. destruct sock as [[]|]; quiet_cases.
  - open_world w. quiet_cases.
  - by apply quiet_activate.
Qed.

Create HintDb quiet.

#[local] Hint Resolve quiet_refl quiet_activate quiet_deactivate quiet_startTune
  quiet_startCalibration quiet_beforeunload quiet_handleBackendMessage
  quiet_animationFrame quiet_runTimer : quiet.

Section History.

Variable doc : Document.

Lemma quiet_dispatch (i : Input) (w : World) :
  isCalibrated (this w) = true → quiet w (dispatch doc i w).
Proof.
  intros H. destruct i; cbn [dispatch].
  - unfold toggle, run, bind, get_this. cbn.
    destruct (isActive (this w)); [apply quiet_deactivate | apply quiet_activate];
      exact H.
  - auto with quiet.
  - auto with quiet.
  - destruct (_ && _); auto with quiet.
  - auto with quiet.
  - destruct (ws_is_open _); auto with quiet.
  - destruct (ws (this w)); [|auto with quiet]. open_world w. quiet_cases.
  - auto with quiet.
  - destruct (timers (env w) !! i) as [[d a]|]; [|auto with quiet].
    unfold run, bind, modify_env. cbn.
    eapply quiet_trans; [|apply quiet_runTimer]; [by split | exact H].
Qed.

(** Whatever happens to a calibrated session, it stays calibrated and
    never sends a calibration frame again. *)
Theorem calibrated_stream_stays_stopped (inputs : list Input) (w : World) :
  isCalibrated (this w) = true → quiet w (history doc inputs w).
Proof.
  revert w. induction inputs as [|i inputs IH]; intros w H; cbn.
  - by apply quiet_refl.
  - pose proof (quiet_dispatch i w H) as Q.
    eapply quiet_trans; [exact Q|]. apply IH, Q.
Qed.

End History.

(** ** A successful completion *)

Lemma armedTrackLoop_app (q q' : list RafCallback) :
  armedTrackLoop (q ++ q') = armedTrackLoop q + armedTrackLoop q'.
Proof. induction q as [|[] q IH]; cbn; congruence. Qed.

(** What a successful completion does to the controller, whatever its
    state: the calibrated flag is set and the overlay hidden; activity,
    socket and camera are left alone; no calibration frame goes out. *)
Lemma complete_success_flags
    (doc : Document) (w : World) (samples : nat) (is_tune : bool) :
  let w' := run (handleBackendMessage doc (calibration_complete true samples is_tune)) w in
  isCalibrated (this w') = true ∧
  isActive (this w') = isActive (this w) ∧
  ws (this w') = ws (this w) ∧
  cameraReady (this w') = cameraReady (this w) ∧
  ov_display (calibrationOverlay (this w')) = false ∧
  calibrationFrames (wire (env w')) = calibrationFrames (wire (env w)).
Proof.
  open_world w. unfold run, cameraReady.
  destruct act, context, video, sock as [[]|], interval; cbn;
    rewrite ?calibrationFrames_app; cbn; repeat split; lia.
Qed.

(** C1 (a successful [calibration_complete] sets the calibrated flag, starts
    the tracking stream and leaves the calibration stream stopped), as
    amended: whatever the state, the flag is set, the overlay is hidden and
    no calibration frame is ever sent again, whatever happens next; when
    the session is active, with its channel open and its camera set up, a
    [track_gaze] frame goes out at once, the tracking loop is armed, and
    every display refresh sends one frame per armed loop; when the session
    is not active nothing is sent and no loop is armed. *)
Theorem C1_successful_complete
    (doc : Document) (w : World) (samples : nat) (is_tune : bool) :
  let w' := run (handleBackendMessage doc (calibration_complete true samples is_tune)) w in
  isCalibrated (this w') = true ∧
  ov_display (calibrationOverlay (this w')) = false ∧
  (∀ inputs : list Input,
     calibrationFrames (wire (env (history doc inputs w')))
       = calibrationFrames (wire (env w))) ∧
  (isActive (this w) = true → ws (this w) = Some OPEN → cameraReady (this w) = true →
     completion (handleBackendMessage doc (calibration_complete true samples is_tune)) w
       = Return tt ∧
     wire (env w') = wire (env w) ++ [Sent (track_gaze (camera (env w)))] ∧
     rafQueue (env w') = rafQueue (env w) ++ [TrackLoop] ∧
     ∀ images : list Frame,
       wire (env (animationFrames images w'))
         = wire (env w')
           ++ flat_map
                (fun image =>
                   repeat (Sent (track_gaze image)) (S (armedTrackLoop (rafQueue (env w)))))
                images) ∧
  (isActive (this w) = false →
     completion (handleBackendMessage doc (calibration_complete true samples is_tune)) w
       = Return tt ∧
     wire (env w') = wire (env w) ∧
     rafQueue (env w') = rafQueue (env w)).
Proof.
  intros w'.
  destruct (complete_success_flags doc w samples is_tune) as (Hc & Ha & Hs & Hr & Ho & Hf).
  fold w' in Hc, Ha, Hs, Hr, Ho, Hf.
  split; [exact Hc|]. split; [exact Ho|]. split; [|split].
  - intros inputs.
    destruct (calibrated_stream_stays_stopped doc inputs w' Hc) as [_ ->]. exact Hf.
  - intros Hact Hws Hcam.
    assert (wire (env w') = wire (env w) ++ [Sent (track_gaze (camera (env w)))] ∧
            rafQueue (env w') = rafQueue (env w) ++ [TrackLoop] ∧
            completion (handleBackendMessage doc (calibration_complete true samples is_tune)) w
              = Return tt) as (Ew & Eq & Ec).
    { subst w'. unfold cameraReady in Hcam. open_world w.
      apply andb_true_iff in Hcam as [-> ->]. destruct interval; repeat split. }
    repeat split; try assumption.
    intros images.
    assert (tracking (this w')) as Ht.
    { unfold tracking. rewrite Hc, Ha, Hs, Hr. auto. }
    destruct (tracking_frames images w' Ht) as [_ ->].
    rewrite Eq, armedTrackLoop_app. cbn. rewrite Nat.add_1_r. reflexivity.
  - intros Hact. subst w'. open_world w. unfold run, completion.
    destruct interval; cbn; auto.
Qed.

Lemma C1_successful_complete_witness :
  wire (env (run (handleBackendMessage sample_page (calibration_complete true 25 false))
               calibrating_world))
    = wire (env calibrating_world) ++ [Sent (track_gaze "frame1")].
Proof.
  pose proof (C1_successful_complete sample_page calibrating_world 25 false)
    as (_ & _ & _ & H & _).
  destruct (H eq_refl eq_refl eq_refl) as (_ & E & _).
  rewrite E. reflexivity.
Defined.

(** The user deactivates during a calibration and the completion arrives
    within the grace delay, the socket still open: the flag is set, and no
    tracking loop is armed and no tracking frame sent, then or later. *)
Lemma C1_counterexample :
  ws_is_open (this grace_world) = true ∧
  isCalibrated
    (this (history sample_page [SocketMessage (calibration_complete true 25 false)]
             grace_world)) = true ∧
  armedTrackLoop
    (rafQueue (env (history sample_page [SocketMessage (calibration_complete true 25 false)]
                      grace_world))) = 0 ∧
  trackFrames
    (wire (env (history sample_page
                  [SocketMessage (calibration_complete true 25 false);
                   AnimationFrame "frame2"; AnimationFrame "frame3"]
                  grace_world))) = 0.
Proof. by_evaluation. Qed.

(** ** The calibration stream *)

(** [trackLoop] neither sends a calibration frame nor arms [sendFrame]. *)
Lemma trackLoop_keeps_calibration_stream (w : World) :
  this (run trackLoop w) = this w ∧
  calibrationFrames (wire (env (run trackLoop w))) = calibrationFrames (wire (env w)) ∧
  armedSendFrame (rafQueue (env (run trackLoop w))) = armedSendFrame (rafQueue (env w)).
Proof.
  assert (∀ q, armedSendFrame (q ++ [TrackLoop]) = armedSendFrame q) as A.
  { induction q as [|[] q IH]; cbn; congruence. }
  open_world w. unfold run.
  destruct act, cal, context, video, sock as [[]|]; cbn;
    rewrite ?calibrationFrames_app, ?A; cbn; repeat split; lia.
Qed.

(** The callbacks of one refresh, once the session is inactive or
    calibrated. *)
Lemma stopped_callbacks (q : list RafCallback) (w : World) :
  negb (isActive (this w)) || isCalibrated (this w) = true →
  this (foldl (fun acc cb => run (runRaf cb) acc) w q) = this w ∧
  calibrationFrames (wire (env (foldl (fun acc cb => run (runRaf cb) acc) w q)))
    = calibrationFrames (wire (env w)) ∧
  armedSendFrame (rafQueue (env (foldl (fun acc cb => run (runRaf cb) acc) w q)))
    = armedSendFrame (rafQueue (env w)).
Proof.
  revert w. induction q as [|cb q IH]; intros w H; cbn [foldl]; [auto|].
  assert (this (run (runRaf cb) w) = this w ∧
          calibrationFrames (wire (env (run (runRaf cb) w)))
            = calibrationFrames (wire (env w)) ∧
          armedSendFrame (rafQueue (env (run (runRaf cb) w)))
            = armedSendFrame (rafQueue (env w)))
    as (E1 & E2 & E3).
  { destruct cb; cbn [runRaf].
    - unfold run. rewrite (sendFrame_stopped w H). auto.
    - apply trackLoop_keeps_calibration_stream. }
  destruct (IH (run (runRaf cb) w)) as (F1 & F2 & F3); [by rewrite E1|].
  rewrite F1, F2, F3. auto.
Qed.

(** A refresh of a session that is inactive or calibrated sends no
    calibration frame and leaves no calibration loop armed. *)
Lemma calibration_stream_stopped (image : Frame) (w : World) :
  isActive (this w) = false ∨ isCalibrated (this w) = true →
  calibrationFrames (wire (env (animationFrame image w)))
    = calibrationFrames (wire (env w)) ∧
  armedSendFrame (rafQueue (env (animationFrame image w))) = 0.
Proof.
  intros H. unfold animationFrame.
  assert (negb (isActive (this w)) || isCalibrated (this w) = true) as Hs
    by (destruct H as [-> | ->]; [reflexivity | apply orb_true_r]).
  pose proof (stopped_callbacks (rafQueue (env w))
                (run (modify_env (fun b => with_rafQueue [] (with_camera image b))) w))
    as S.
  destruct S as (_ & S2 & S3); [destruct w as [c []]; exact Hs|].
  rewrite S2, S3. destruct w as [c []]. auto.
Qed.

(** A deactivation leaves the session inactive. *)
Lemma deactivate_inactive (cleanup : bool) (w : World) :
  isActive (this (run (deactivate cleanup) w)) = false.
Proof.
  open_world w. unfold run.
  destruct act, cleanup, sock as [[]|], voice as [[]|], stream, video; reflexivity.
Qed.

(** C8 (calibration frames are streamed in every calibration state and stop
    on the return to idle, in a tuning pass as in a first calibration), as
    amended: while the session is active, not calibrated and the camera is
    set up, handling [calibration_started] sends a frame and arms the
    loop, and each display refresh sends one [calibration_frame] per armed
    loop when the socket is open (none when it is not) and arms each loop
    again; after a successful completion, and after a deactivation, a
    refresh sends no calibration frame and leaves no calibration loop
    armed. *)
Theorem C8_calibration_stream
    (doc : Document) (w : World) (image : Frame) (points : list Point) :
  (calibrating (this w) →
     wire (env (run (handleBackendMessage doc (calibration_started points)) w))
       = wire (env w) ++ calibration_frame_on (this w) (camera (env w)) 1 ∧
     rafQueue (env (run (handleBackendMessage doc (calibration_started points)) w))
       = rafQueue (env w) ++ [SendFrame] ∧
     wire (env (animationFrame image w))
       = wire (env w)
         ++ calibration_frame_on (this w) image (armedSendFrame (rafQueue (env w))) ∧
     rafQueue (env (animationFrame image w))
       = repeat SendFrame (armedSendFrame (rafQueue (env w))) ∧
     this (animationFrame image w) = this w) ∧
  (∀ (samples : nat) (is_tune : bool),
     let w' := run (handleBackendMessage doc (calibration_complete true samples is_tune)) w in
     calibrationFrames (wire (env (animationFrame image w')))
       = calibrationFrames (wire (env w')) ∧
     armedSendFrame (rafQueue (env (animationFrame image w'))) = 0) ∧
  (∀ cleanup : bool,
     let w' := run (deactivate cleanup) w in
     calibrationFrames (wire (env (animationFrame image w')))
       = calibrationFrames (wire (env w')) ∧
     armedSendFrame (rafQueue (env (animationFrame image w'))) = 0).
Proof.
  split; [|split].
  - intros Hw. rewrite (calibrating_frame image w Hw).
    split; [|split]; [| |destruct w as [c []]; auto].
    + destruct Hw as (Ha & Hc & Hr). unfold cameraReady in Hr. open_world w.
      apply andb_true_iff in Hr as [-> ->]. unfold calibration_frame_on, run.
      destruct sock as [[]|]; cbn; rewrite ?app_nil_r; reflexivity.
    + destruct Hw as (Ha & Hc & Hr). unfold cameraReady in Hr. open_world w.
      apply andb_true_iff in Hr as [-> ->]. unfold run.
      destruct sock as [[]|]; cbn; reflexivity.
  - intros samples is_tune w'. apply calibration_stream_stopped. right.
    apply (complete_success_flags doc w samples is_tune).
  - intros cleanup w'. apply calibration_stream_stopped. left.
    apply deactivate_inactive.
Qed.

Lemma C8_calibration_stream_witness :
  wire (env (animationFrame "frame2" calibrating_world))
    = wire (env calibrating_world) ++ [Sent (calibration_frame "frame2")].
Proof.
  pose proof (proj1 (C8_calibration_stream sample_page calibrating_world "frame2" [])
                (conj eq_refl (conj eq_refl eq_refl))) as (_ & _ & H & _).
  rewrite H. reflexivity.
Defined.

(** Held against the state graph: after [start_calibration] and a face
    countdown the graph is in [AwaitingFaceLock], the socket is open, and
    two refreshes send no calibration frame, since the stream only starts
    with [calibration_started]; and in a tuning pass that the backend has
    started the graph is in [PointPulse 0], and two refreshes send no
    calibration frame either, the calibrated flag being still set. *)
Lemma C8_counterexample :
  wire (env awaiting_world) = [Sent load_model; Sent start_calibration] ∧
  cal_run [LocalStart; Inbound (calibration_face_countdown (1 # 2) None)]
    = AwaitingFaceLock ∧
  streaming_state
    (cal_run [LocalStart; Inbound (calibration_face_countdown (1 # 2) None)]) = true ∧
  ws_is_open (this awaiting_world) = true ∧
  calibrationFrames
    (wire (env (history sample_page
                  [SocketMessage (calibration_face_countdown (1 # 2) None);
                   AnimationFrame "frame1"; AnimationFrame "frame2"]
                  awaiting_world))) = 0 ∧
  cal_run [LocalStart; Inbound (calibration_started five_points)] = PointPulse 0 ∧
  streaming_state (cal_run [LocalStart; Inbound (calibration_started five_points)])
    = true ∧
  ws_is_open (this tuning_world) = true ∧
  calibrationFrames
    (wire (env (history sample_page [AnimationFrame "frame3"; AnimationFrame "frame4"]
                  tuning_world)))
    = calibrationFrames (wire (env tracking_world)).
Proof. by_evaluation. Qed.

(** ** Whole sessions *)

(** A first calibration from start to end: five points, each with its
    pulse and capture phases, then a successful completion.  The session
    ends calibrated, the overlay hidden, one tracking loop armed and no
    calibration loop left after the next refresh. *)
Example calibration_end_to_end :
  let cycle (i : nat) :=
    [SocketMessage (calibration_point_start i);
     SocketMessage (calibration_pulse (1 # 2)); AnimationFrame "pulse";
     SocketMessage (calibration_capture (1 # 2)); AnimationFrame "capture"] in
  let w :=
    history sample_page
      ([SocketMessage (calibration_started five_points)]
       ++ cycle 0 ++ cycle 1 ++ cycle 2 ++ cycle 3 ++ cycle 4
       ++ [SocketMessage (calibration_complete true 25 false); AnimationFrame "track"])
      awaiting_world in
  isCalibrated (this w) = true ∧
  ov_display (calibrationOverlay (this w)) = false ∧
  calibrationFrames (wire (env w)) = 11 ∧
  trackFrames (wire (env w)) = 2 ∧
  rafQueue (env w) = [TrackLoop].
Proof. by_evaluation. Qed.

(** A page loaded with the persisted flag set activates by itself when the
    timer of [init] fires. *)
Example auto_resume :
  let w := history sample_page [Timeout 0 None true] (run (init false) (new_page true)) in
  isActive (this w) = true ∧ wire (env w) = [Sent load_model].
Proof. by_evaluation. Qed.

(** An activation whose camera request is denied leaves the session
    inactive and opens no socket. *)
Example activation_denied :
  let w := history sample_page [ToggleMessage (Some "Permission denied") true]
             (new_page false) in
  isActive (this w) = false ∧ ws (this w) = None ∧ wire (env w) = [] ∧
  st_text (statusElement (this w)) = "Failed: Permission denied".
Proof. by_evaluation. Qed.
